(** * AppleGPUInfo: a shallow embedding of [src/AppleGPUInfo/main.cpp]

    The program asks IOKit for the single [AGXAccelerator] registry entry,
    reads its ['gpu-core-count'] and ['model'] properties, derives a clock
    speed from the model string and prints both numbers.

    Layout of this development:
    - [CoreFoundation]: the few CoreFoundation values and string tests the
      program calls;
    - [ClockTable]: the prefix/suffix chain of [get_gpu_max_clock_speed];
    - [Process]: the state-and-exit monad in which the effectful code runs;
    - [AppleGPUInfo]: the functions of [main.cpp], in source order;
    - [Observations]: failures, traces and phases, the vocabulary of the
      statements;
    - string facts, the run case by case, and the properties of the table
      and of the process;
    - the shape of the table, the contract of each function from any
      state, and the success, output and resources of the whole run. *)

From Stdlib Require Import ZArith List Bool Ascii String Lia.
From Stdlib Require Import DecimalString.
Import ListNotations.

Local Open Scope string_scope.
Local Open Scope Z_scope.

(* ================================================================== *)
(** * CoreFoundation values used by the program *)

Module CoreFoundation.

(** [CFNumberType], in the order of [CFNumber.h]; [kCFNumberSInt64Type] is
    the fourth member. *)
Inductive CFNumberType : Type :=
| kCFNumberSInt8Type | kCFNumberSInt16Type | kCFNumberSInt32Type
| kCFNumberSInt64Type | kCFNumberFloat32Type | kCFNumberFloat64Type
| kCFNumberCharType | kCFNumberShortType | kCFNumberIntType
| kCFNumberLongType | kCFNumberLongLongType | kCFNumberFloatType
| kCFNumberDoubleType | kCFNumberCFIndexType | kCFNumberNSIntegerType
| kCFNumberCGFloatType.

Definition CFNumberType_eqb (a b : CFNumberType) : bool :=
  match a, b with
  | kCFNumberSInt8Type, kCFNumberSInt8Type
  | kCFNumberSInt16Type, kCFNumberSInt16Type
  | kCFNumberSInt32Type, kCFNumberSInt32Type
  | kCFNumberSInt64Type, kCFNumberSInt64Type
  | kCFNumberFloat32Type, kCFNumberFloat32Type
  | kCFNumberFloat64Type, kCFNumberFloat64Type
  | kCFNumberCharType, kCFNumberCharType
  | kCFNumberShortType, kCFNumberShortType
  | kCFNumberIntType, kCFNumberIntType
  | kCFNumberLongType, kCFNumberLongType
  | kCFNumberLongLongType, kCFNumberLongLongType
  | kCFNumberFloatType, kCFNumberFloatType
  | kCFNumberDoubleType, kCFNumberDoubleType
  | kCFNumberCFIndexType, kCFNumberCFIndexType
  | kCFNumberNSIntegerType, kCFNumberNSIntegerType
  | kCFNumberCGFloatType, kCFNumberCGFloatType => true
  | _, _ => false
  end.

(** A [CFNumberRef] as the program observes it: the type [CFNumberGetType]
    reports, the integer it holds, and whether [CFNumberGetValue] reports a
    lossless conversion. *)
Record CFNumber : Type := mkCFNumber {
  number_type : CFNumberType;
  number_value : Z;
  number_exact : bool
}.

(** The value an [int64_t] holds: two's complement on 64 bits. *)
Definition int64_wrap (z : Z) : Z := (z + 2 ^ 63) mod 2 ^ 64 - 2 ^ 63.

(** A [CFStringRef] is modelled by its characters.  Both tests are the
    anchored, literal comparisons of CoreFoundation; every pattern the
    program passes is a non-empty ASCII literal. *)
Definition CFStringHasPrefix (theString prefix : string) : bool :=
  String.prefix prefix theString.

Definition CFStringHasSuffix (theString suffix : string) : bool :=
  let n := String.length theString in
  let k := String.length suffix in
  (k <=? n)%nat && (substring (n - k) k theString =? suffix)%string.

End CoreFoundation.
Import CoreFoundation.

(* ================================================================== *)
(** * The clock-speed table *)

Module ClockTable.

(** Lines 76-113 of [main.cpp]: the value [get_gpu_max_clock_speed] returns
    once the ['model'] property has been found.  Clock speed in MHz. *)
Definition max_clock_speed_of_model (model : string) : Z :=
  if CFStringHasPrefix model "Apple M1" then
    if CFStringHasSuffix model "M1" then 1278
    else if CFStringHasSuffix model "Pro" then 1296
    else if CFStringHasSuffix model "Max" then 1296
    else if CFStringHasSuffix model "Ultra" then 1296
    else 1278
  else if CFStringHasPrefix model "Apple M2" then
    if CFStringHasSuffix model "M2" then 1398
    else 1398
  else if CFStringHasPrefix model "Apple M" then 1398
  else if CFStringHasPrefix model "Apple A" then
    if CFStringHasSuffix model "A14" then 1278
    else if CFStringHasSuffix model "A15" then 1336
    else if CFStringHasSuffix model "A16" then 1336
    else 1336
  else 0.

End ClockTable.
Import ClockTable.

(* ================================================================== *)
(** * The process: IOKit answers, observable events, state and exit *)

Module Process.

(** [io_object_t] and [io_registry_entry_t] are integer handles; [0] is
    [IO_OBJECT_NULL].  Live registry entries have positive handles. *)
Definition io_object_t : Type := Z.
Definition io_registry_entry_t : Type := io_object_t.
Definition IO_OBJECT_NULL : io_object_t := 0.
Definition kern_return_t : Type := Z.

(** The two properties the program reads from an entry.  The source casts
    the untyped result of the search to [CFNumberRef] and to [CFStringRef]
    without a check; the registries considered here store a number under
    ['gpu-core-count'] and a string under ['model'], or nothing. *)
Record entry_properties : Type := mkProperties {
  gpu_core_count_property : option CFNumber;
  model_property : option string
}.

(** What the operating system answers during one run. *)
Record World : Type := mkWorld {
  (** does [IOServiceMatching] return a dictionary (not [NULL])? *)
  match_dictionary_built : bool;
  (** the code [IOServiceGetMatchingServices] returns *)
  matching_error : kern_return_t;
  (** the entries the iterator yields, in order *)
  matching_entries : list positive;
  (** the property set of each live entry *)
  properties : positive -> entry_properties
}.

(** Which object an [IOObjectRelease] call is applied to. *)
Inductive released : Type :=
| EntryIterator
| RegistryEntry (handle : io_registry_entry_t).

(** Every library call and every stream insertion, in program order.
    [TableLookup] marks the point where the prefix/suffix chain of
    [get_gpu_max_clock_speed] runs. *)
Inductive event : Type :=
| CallIOServiceMatching (name : string)
| CallIOServiceGetMatchingServices
| CallIOIteratorNext
| CallIOObjectRelease (object : released)
| CallIORegistryEntrySearchCFProperty (entry : io_registry_entry_t)
                                      (key : string)
| CallCFNumberGetType
| CallCFNumberGetValue
| CallCFRelease
| TableLookup (model : string)
| Cerr (text : string)
| Cout (text : string)
| ProcessExit (status : Z).

Record state : Type := mkState {
  entry_iterator : list positive;
  trace : list event
}.

Definition initial : state := {| entry_iterator := []; trace := [] |}.

(** A computation either returns or has called [exit]. *)
Inductive result (A : Type) : Type :=
| Ret (a : A)
| Exit (status : Z).
Arguments Ret {A} a.
Arguments Exit {A} status.

Definition M (A : Type) : Type := state -> result A * state.

Definition ret {A} (a : A) : M A := fun st => (Ret a, st).

Definition bind {A B} (m : M A) (f : A -> M B) : M B :=
  fun st =>
    match m st with
    | (Ret a, st') => f a st'
    | (Exit status, st') => (Exit status, st')
    end.

Definition emit (e : event) : M unit :=
  fun st => (Ret tt, {| entry_iterator := entry_iterator st;
                        trace := trace st ++ [e] |}).

End Process.
Import Process.

Declare Scope process_scope.
Delimit Scope process_scope with process.
Notation "x <- m ;; k" := (bind m (fun x => k))
  (at level 61, m at next level, right associativity) : process_scope.
Notation "m ;; k" := (bind m (fun _ => k))
  (at level 61, right associativity) : process_scope.
Local Open Scope process_scope.

(* ================================================================== *)
(** * The program *)

Module AppleGPUInfo.

(** [std::endl] and ['\n'] both put a line feed on the stream. *)
Definition endl : string := String (ascii_of_nat 10) "".

(** [operator<<] on an [int64_t]: signed decimal. *)
Definition string_of_int64 (value : Z) : string :=
  NilZero.string_of_int (Z.to_int value).

Definition cerr (text : string) : M unit := emit (Cerr text).
Definition cout (text : string) : M unit := emit (Cout text).

(** [exit(status)] does not return. *)
Definition exit {A} (status : Z) : M A :=
  fun st => (Exit status, {| entry_iterator := entry_iterator st;
                             trace := trace st ++ [ProcessExit status] |}).

Section Calls.

Variable w : World.

Definition IOServiceMatching (name : string) : M (option string) :=
  emit (CallIOServiceMatching name) ;;
  ret (if match_dictionary_built w then Some name else None).

(** On success the iterator holds the matching entries. *)
Definition IOServiceGetMatchingServices : M kern_return_t :=
  emit CallIOServiceGetMatchingServices ;;
  fun st =>
    (Ret (matching_error w),
     {| entry_iterator :=
          if matching_error w =? 0 then matching_entries w
          else entry_iterator st;
        trace := trace st |}).

(** The next entry, or [IO_OBJECT_NULL] once the iterator is exhausted. *)
Definition IOIteratorNext : M io_object_t :=
  emit CallIOIteratorNext ;;
  fun st =>
    match entry_iterator st with
    | [] => (Ret IO_OBJECT_NULL, st)
    | h :: rest =>
        (Ret (Zpos h), {| entry_iterator := rest; trace := trace st |})
    end.

Definition IOObjectRelease (object : released) : M unit :=
  emit (CallIOObjectRelease object).

(** The property of a live entry; a search on [IO_OBJECT_NULL], which
    names no entry, returns [NULL]. *)
Definition IORegistryEntrySearchCFProperty {A}
    (entry : io_registry_entry_t) (key : string)
    (typed : entry_properties -> option A) : M (option A) :=
  emit (CallIORegistryEntrySearchCFProperty entry key) ;;
  ret (match entry with
       | Zpos h => typed (properties w h)
       | _ => None
       end).

Definition CFNumberGetType (number : CFNumber) : M CFNumberType :=
  emit CallCFNumberGetType ;; ret (number_type number).

(** Returns the success flag together with the value stored through the
    [int64_t] out-pointer.  The program only calls it with the type it has
    just checked to be [kCFNumberSInt64Type]. *)
Definition CFNumberGetValue (number : CFNumber) (theType : CFNumberType)
  : M (bool * Z) :=
  emit CallCFNumberGetValue ;;
  ret (number_exact number, int64_wrap (number_value number)).

Definition CFRelease : M unit := emit CallCFRelease.

(** Lines 12-17. *)
Definition print_error_message {A} (message : string) : M A :=
  cerr endl ;; cerr message ;; cerr endl ;; exit (-1).

(** Lines 19-24. *)
Definition release_assert (condition : bool) (message : string) : M unit :=
  if negb condition then print_error_message message else ret tt.

(** [release_assert] applied to a pointer, followed by its use: the
    pointee when the pointer is not [NULL]. *)
Definition release_assert_ptr {A} (pointer : option A) (message : string)
  : M A :=
  match pointer with
  | Some pointee => release_assert true message ;; ret pointee
  | None => print_error_message message
  end.

(** Lines 27-44.  The caller must release the entry. *)
Definition get_gpu_entry : M io_registry_entry_t :=
  match_dictionary <- IOServiceMatching "AGXAccelerator" ;;
  _ <- release_assert_ptr match_dictionary
         "Could not find AGXAccelerator service." ;;
  error <- IOServiceGetMatchingServices ;;
  release_assert (error =? 0) "No objects match AGXAccelerator service." ;;
  gpu_entry <- IOIteratorNext ;;
  next <- IOIteratorNext ;;
  release_assert (next =? IO_OBJECT_NULL) "Found multiple GPUs." ;;
  IOObjectRelease EntryIterator ;;
  ret gpu_entry.

(** Lines 47-66, the branch compiled when [TARGET_OS_IPHONE] is off. *)
Definition get_gpu_core_count (gpu_entry : io_registry_entry_t) : M Z :=
  found <- IORegistryEntrySearchCFProperty gpu_entry "gpu-core-count"
             gpu_core_count_property ;;
  gpu_core_count <- release_assert_ptr found
                      "Could not find 'gpu-core-count' property." ;;
  type <- CFNumberGetType gpu_core_count ;;
  release_assert (CFNumberType_eqb type kCFNumberSInt64Type)
    "'gpu-core-count' not sInt64." ;;
  got <- CFNumberGetValue gpu_core_count type ;;
  let '(retrieved_value, value) := got in
  release_assert retrieved_value "Could not fetch 'gpu-core-count' value." ;;
  CFRelease ;;
  ret value.

(** Lines 69-114. *)
Definition get_gpu_max_clock_speed (gpu_entry : io_registry_entry_t) : M Z :=
  found <- IORegistryEntrySearchCFProperty gpu_entry "model"
             model_property ;;
  model <- release_assert_ptr found "Could not find 'model' property." ;;
  emit (TableLookup model) ;;
  ret (max_clock_speed_of_model model).

(** Lines 118-127. *)
Definition main : M Z :=
  gpu_entry <- get_gpu_entry ;;
  core_count <- get_gpu_core_count gpu_entry ;;
  max_clock_speed <- get_gpu_max_clock_speed gpu_entry ;;
  IOObjectRelease (RegistryEntry gpu_entry) ;;
  cout "The GPU has " ;; cout (string_of_int64 core_count) ;;
  cout " cores." ;; cout endl ;;
  cout "The GPU runs at " ;; cout (string_of_int64 max_clock_speed) ;;
  cout " MHz." ;; cout endl ;;
  ret 0.

End Calls.

(** What an observer of the process sees. *)
Record outcome : Type := mkOutcome {
  exit_status : Z;
  events : list event
}.

(** Run [main] from the initial state; returning from [main] exits with
    the returned status. *)
Definition run (w : World) : outcome :=
  match main w initial with
  | (Ret status, st) =>
      {| exit_status := status; events := trace st ++ [ProcessExit status] |}
  | (Exit status, st) =>
      {| exit_status := status; events := trace st |}
  end.

Fixpoint stdout_of (t : list event) : string :=
  match t with
  | [] => ""
  | Cout text :: t' => text ++ stdout_of t'
  | _ :: t' => stdout_of t'
  end.

Fixpoint stderr_of (t : list event) : string :=
  match t with
  | [] => ""
  | Cerr text :: t' => text ++ stderr_of t'
  | _ :: t' => stderr_of t'
  end.

Definition stdout (w : World) : string := stdout_of (events (run w)).
Definition stderr (w : World) : string := stderr_of (events (run w)).

(** The status the parent process reads: the low eight bits. *)
Definition wait_status (status : Z) : Z := Z.land status 255.

End AppleGPUInfo.
Import AppleGPUInfo.

(* ================================================================== *)
(** * Vocabulary for the properties *)

Module Observations.

(** The checks of the program, in the order it performs them. *)
Inductive failure : Type :=
| LookupConstruction
| ServiceQuery
| Cardinality
| PropertyMissing (key : string)
| PropertyTypeMismatch
| ValueExtraction.

(** The text each check hands to [print_error_message]. *)
Definition failure_message (f : failure) : string :=
  match f with
  | LookupConstruction => "Could not find AGXAccelerator service."
  | ServiceQuery => "No objects match AGXAccelerator service."
  | Cardinality => "Found multiple GPUs."
  | PropertyMissing key => "Could not find '" ++ key ++ "' property."
  | PropertyTypeMismatch => "'gpu-core-count' not sInt64."
  | ValueExtraction => "Could not fetch 'gpu-core-count' value."
  end.

(** The handle [get_gpu_entry] returns when none of its checks fires. *)
Definition located (w : World) : io_registry_entry_t :=
  match matching_entries w with
  | [] => IO_OBJECT_NULL
  | h :: _ => Zpos h
  end.

(** The property set behind a handle; the null handle has none. *)
Definition properties_of (w : World) (entry : io_registry_entry_t)
  : entry_properties :=
  match entry with
  | Zpos h => properties w h
  | _ => {| gpu_core_count_property := None; model_property := None |}
  end.

(** The first check that fires, read off the answers of the system. *)
Definition first_failure (w : World) : option failure :=
  if negb (match_dictionary_built w) then Some LookupConstruction
  else if negb (matching_error w =? 0) then Some ServiceQuery
  else if (2 <=? List.length (matching_entries w))%nat then Some Cardinality
  else
    let entry := properties_of w (located w) in
    match gpu_core_count_property entry with
    | None => Some (PropertyMissing "gpu-core-count")
    | Some number =>
        if negb (CFNumberType_eqb (number_type number) kCFNumberSInt64Type)
        then Some PropertyTypeMismatch
        else if negb (number_exact number) then Some ValueExtraction
        else match model_property entry with
             | None => Some (PropertyMissing "model")
             | Some _ => None
             end
    end.

(** The calls of [get_gpu_entry] when it returns. *)
Definition locate_calls : list event :=
  [CallIOServiceMatching "AGXAccelerator"; CallIOServiceGetMatchingServices;
   CallIOIteratorNext; CallIOIteratorNext;
   CallIOObjectRelease EntryIterator].

(** The calls of [get_gpu_core_count] when it returns. *)
Definition core_count_calls (entry : io_registry_entry_t) : list event :=
  [CallIORegistryEntrySearchCFProperty entry "gpu-core-count";
   CallCFNumberGetType; CallCFNumberGetValue; CallCFRelease].

(** The events that precede the error report of each failure. *)
Definition calls_before (w : World) (f : failure) : list event :=
  match f with
  | LookupConstruction => [CallIOServiceMatching "AGXAccelerator"]
  | ServiceQuery =>
      [CallIOServiceMatching "AGXAccelerator";
       CallIOServiceGetMatchingServices]
  | Cardinality =>
      [CallIOServiceMatching "AGXAccelerator";
       CallIOServiceGetMatchingServices;
       CallIOIteratorNext; CallIOIteratorNext]
  | PropertyMissing key =>
      if (key =? "model")%string
      then locate_calls ++ core_count_calls (located w)
           ++ [CallIORegistryEntrySearchCFProperty (located w) "model"]
      else locate_calls
           ++ [CallIORegistryEntrySearchCFProperty (located w) key]
  | PropertyTypeMismatch =>
      locate_calls
      ++ [CallIORegistryEntrySearchCFProperty (located w) "gpu-core-count";
          CallCFNumberGetType]
  | ValueExtraction =>
      locate_calls
      ++ [CallIORegistryEntrySearchCFProperty (located w) "gpu-core-count";
          CallCFNumberGetType; CallCFNumberGetValue]
  end.

(** What [print_error_message] adds to the trace. *)
Definition error_report (message : string) : list event :=
  [Cerr endl; Cerr message; Cerr endl; ProcessExit (-1)].

(** The trace of a run in which every check passes. *)
Definition success_trace (entry : io_registry_entry_t) (core_count : Z)
    (model : string) : list event :=
  locate_calls ++ core_count_calls entry
  ++ [CallIORegistryEntrySearchCFProperty entry "model";
      TableLookup model;
      CallIOObjectRelease (RegistryEntry entry);
      Cout "The GPU has "; Cout (string_of_int64 core_count);
      Cout " cores."; Cout endl;
      Cout "The GPU runs at ";
      Cout (string_of_int64 (max_clock_speed_of_model model));
      Cout " MHz."; Cout endl;
      ProcessExit 0].

(** A fatal error: the message between two line feeds on the error
    stream, status [-1], nothing on standard output. *)
Definition fatal (o : outcome) (message : string) : Prop :=
  exit_status o = -1
  /\ stderr_of (events o) = endl ++ message ++ endl
  /\ stdout_of (events o) = "".

(** The steps of the program an observer can tell apart. *)
Inductive phase : Type :=
| LocateEntry | ReadCoreCount | ReadModel | LookupClock
| PrintLines | ReleaseHandle | ExitProcess | ReportError.

Definition phase_eqb (a b : phase) : bool :=
  match a, b with
  | LocateEntry, LocateEntry | ReadCoreCount, ReadCoreCount
  | ReadModel, ReadModel | LookupClock, LookupClock
  | PrintLines, PrintLines | ReleaseHandle, ReleaseHandle
  | ExitProcess, ExitProcess | ReportError, ReportError => true
  | _, _ => false
  end.

Definition phase_of (e : event) : phase :=
  match e with
  | CallIOServiceMatching _ | CallIOServiceGetMatchingServices
  | CallIOIteratorNext | CallIOObjectRelease EntryIterator => LocateEntry
  | CallIORegistryEntrySearchCFProperty _ key =>
      if (key =? "model")%string then ReadModel else ReadCoreCount
  | CallCFNumberGetType | CallCFNumberGetValue | CallCFRelease =>
      ReadCoreCount
  | TableLookup _ => LookupClock
  | Cout _ => PrintLines
  | CallIOObjectRelease (RegistryEntry _) => ReleaseHandle
  | ProcessExit _ => ExitProcess
  | Cerr _ => ReportError
  end.

(** Collapse each run of equal neighbours to one element. *)
Fixpoint collapse (ps : list phase) : list phase :=
  match ps with
  | [] => []
  | a :: rest =>
      match rest with
      | b :: _ => if phase_eqb a b then collapse rest else a :: collapse rest
      | [] => [a]
      end
  end.

(** The phases of a trace, in the order they occur. *)
Definition phases (t : list event) : list phase :=
  collapse (map phase_of t).

(** Events that belong to the clock-speed logic. *)
Definition clock_speed_logic (e : event) : bool :=
  match phase_of e with
  | ReadModel | LookupClock => true
  | _ => false
  end.

(** Questions put to the device registry. *)
Definition is_query (e : event) : bool :=
  match e with
  | CallIOServiceMatching _ | CallIOServiceGetMatchingServices
  | CallIORegistryEntrySearchCFProperty _ _ => true
  | _ => false
  end.

Definition queries (t : list event) : list event := filter is_query t.

(** The order of the phases as the documentation lists them, and as
    [main] performs them. *)
Definition documented_order : list phase :=
  [LocateEntry; ReadCoreCount; ReadModel; LookupClock;
   PrintLines; ReleaseHandle; ExitProcess].

Definition program_order : list phase :=
  [LocateEntry; ReadCoreCount; ReadModel; LookupClock;
   ReleaseHandle; PrintLines; ExitProcess].

(** The failure causes of the documentation, each by the answer of the
    system that triggers it. *)
Inductive failure_cause (w : World) : failure -> Prop :=
| lookup_construction_fails :
    match_dictionary_built w = false ->
    failure_cause w LookupConstruction
| service_query_fails :
    matching_error w <> 0 ->
    failure_cause w ServiceQuery
| cardinality_violated :
    List.length (matching_entries w) <> 1%nat ->
    failure_cause w Cardinality
| core_count_missing :
    gpu_core_count_property (properties_of w (located w)) = None ->
    failure_cause w (PropertyMissing "gpu-core-count")
| model_missing :
    model_property (properties_of w (located w)) = None ->
    failure_cause w (PropertyMissing "model")
| core_count_type_mismatch number :
    gpu_core_count_property (properties_of w (located w)) = Some number ->
    number_type number <> kCFNumberSInt64Type ->
    failure_cause w PropertyTypeMismatch
| core_count_value_not_extracted number :
    gpu_core_count_property (properties_of w (located w)) = Some number ->
    number_exact number = false ->
    failure_cause w ValueExtraction.

(** Sample systems. *)
Definition sample_properties (type : CFNumberType) (cores : Z)
    (model : string) : positive -> entry_properties :=
  fun _ => {| gpu_core_count_property := Some (mkCFNumber type cores true);
              model_property := Some model |}.

Definition sample_world (entries : list positive) (type : CFNumberType)
    (cores : Z) (model : string) : World :=
  {| match_dictionary_built := true;
     matching_error := 0;
     matching_entries := entries;
     properties := sample_properties type cores model |}.

(** One M2 GPU with ten cores. *)
Definition m2_world : World :=
  sample_world [7%positive] kCFNumberSInt64Type 10 "Apple M2".

(** Counting the events of one kind in a trace. *)
Definition count (kind : event -> bool) (t : list event) : nat :=
  List.length (filter kind t).

Definition is_entry_release (e : event) : bool :=
  match e with
  | CallIOObjectRelease (RegistryEntry _) => true
  | _ => false
  end.

Definition is_iterator_release (e : event) : bool :=
  match e with
  | CallIOObjectRelease EntryIterator => true
  | _ => false
  end.

Definition is_cf_release (e : event) : bool :=
  match e with
  | CallCFRelease => true
  | _ => false
  end.

Definition is_property_search (e : event) : bool :=
  match e with
  | CallIORegistryEntrySearchCFProperty _ _ => true
  | _ => false
  end.

(** Calls that use the iterator [IOServiceGetMatchingServices] fills in. *)
Definition uses_iterator (e : event) : bool :=
  match e with
  | CallIOIteratorNext | CallIOObjectRelease EntryIterator => true
  | _ => false
  end.

(** The texts the program can put on the error stream. *)
Definition error_messages : list string :=
  ["Could not find AGXAccelerator service.";
   "No objects match AGXAccelerator service.";
   "Found multiple GPUs.";
   "Could not find 'gpu-core-count' property.";
   "'gpu-core-count' not sInt64.";
   "Could not fetch 'gpu-core-count' value.";
   "Could not find 'model' property."].

Definition is_model_search (e : event) : bool :=
  match e with
  | CallIORegistryEntrySearchCFProperty _ key => (key =? "model")%string
  | _ => false
  end.

(** What follows the first event of a kind. *)
Fixpoint events_after (kind : event -> bool) (t : list event) : list event :=
  match t with
  | [] => []
  | e :: rest => if kind e then rest else events_after kind rest
  end.

(** The two lines of a successful run. *)
Definition report_lines (core_count max_clock_speed : Z) : string :=
  "The GPU has " ++ string_of_int64 core_count ++ " cores." ++ endl
  ++ "The GPU runs at " ++ string_of_int64 max_clock_speed ++ " MHz."
  ++ endl.

End Observations.
Import Observations.

(* ================================================================== *)
(** * String facts *)

Section StringFacts.

Lemma prefix_app (p t : string) : String.prefix p (p ++ t) = true.
Proof.
  induction p as [|c p IH]; simpl.
  - destruct t; reflexivity.
  - destruct (ascii_dec c c) as [_|N]; [exact IH | contradiction].
Qed.

Lemma prefix_inv (p s : string) :
  String.prefix p s = true -> exists t, s = p ++ t.
Proof.
  revert s; induction p as [|c p IH]; intros s H.
  - exists s; reflexivity.
  - destruct s as [|d s]; simpl in H; [discriminate|].
    destruct (ascii_dec c d) as [->|]; [|discriminate].
    destruct (IH _ H) as [t ->]. exists t; reflexivity.
Qed.

(** [CFStringHasPrefix] holds exactly of the strings that start with the
    pattern. *)
Lemma CFStringHasPrefix_iff (s p : string) :
  CFStringHasPrefix s p = true <-> exists t, s = p ++ t.
Proof.
  unfold CFStringHasPrefix; split.
  - apply prefix_inv.
  - intros [t ->]; apply prefix_app.
Qed.

Lemma length_app (s t : string) :
  String.length (s ++ t) = (String.length s + String.length t)%nat.
Proof. induction s; simpl; congruence. Qed.

Lemma substring_all (s : string) : substring 0 (String.length s) s = s.
Proof. induction s; simpl; congruence. Qed.

Lemma substring_skip_app (t s : string) (k : nat) :
  substring (String.length t) k (t ++ s) = substring 0 k s.
Proof. induction t; simpl; auto. Qed.

Lemma substring_split (s : string) (n : nat) :
  (n <= String.length s)%nat ->
  s = substring 0 n s ++ substring n (String.length s - n) s.
Proof.
  revert n; induction s as [|c s IH]; intros n Hn.
  - destruct n; simpl in *; [reflexivity | lia].
  - destruct n as [|n]; simpl.
    + now rewrite substring_all.
    + simpl in Hn. f_equal. apply IH. lia.
Qed.

(** [CFStringHasSuffix] holds exactly of the strings that end with the
    pattern. *)
Lemma CFStringHasSuffix_iff (s p : string) :
  CFStringHasSuffix s p = true <-> exists t, s = t ++ p.
Proof.
  unfold CFStringHasSuffix; cbv zeta; split.
  - intros H. apply andb_true_iff in H as [Hle Heq].
    apply Nat.leb_le in Hle. apply String.eqb_eq in Heq.
    exists (substring 0 (String.length s - String.length p) s).
    pose proof (substring_split s (String.length s - String.length p)) as E.
    replace (String.length s - (String.length s - String.length p))%nat
      with (String.length p) in E by lia.
    rewrite Heq in E. apply E. lia.
  - intros [t ->]. rewrite length_app. apply andb_true_iff; split.
    + apply Nat.leb_le; lia.
    + replace (String.length t + String.length p - String.length p)%nat
        with (String.length t) by lia.
      rewrite substring_skip_app, substring_all. apply String.eqb_refl.
Qed.

Lemma list_ascii_app (s t : string) :
  list_ascii_of_string (s ++ t)
  = (list_ascii_of_string s ++ list_ascii_of_string t)%list.
Proof. induction s; simpl; congruence. Qed.

(** Two patterns that both end a string agree from the right: the shorter
    one is read off the reversed string first. *)
Lemma suffix_rev (s p : string) :
  CFStringHasSuffix s p = true ->
  exists r, rev (list_ascii_of_string s)
            = (rev (list_ascii_of_string p) ++ r)%list.
Proof.
  intros H. apply CFStringHasSuffix_iff in H as [t ->].
  exists (rev (list_ascii_of_string t)).
  now rewrite list_ascii_app, rev_app_distr.
Qed.

End StringFacts.

(** Two suffix patterns whose last characters differ cannot both hold. *)
Ltac suffix_clash H1 H2 :=
  let r1 := fresh "r" in let r2 := fresh "r" in
  let E1 := fresh "E" in let E2 := fresh "E" in
  destruct (suffix_rev _ _ H1) as [r1 E1];
  destruct (suffix_rev _ _ H2) as [r2 E2];
  rewrite E1 in E2; simpl in E2; discriminate E2.

(* ================================================================== *)
(** * The run, case by case *)

Section RunCases.

(** The program and the reading of the answers agree: either the first
    failing check is reported and the process exits with [-1], or the two
    lines are printed. *)
Lemma run_cases (w : World) :
  run w =
  match first_failure w with
  | Some f =>
      {| exit_status := -1;
         events := calls_before w f ++ error_report (failure_message f) |}
  | None =>
      {| exit_status := 0;
         events :=
           success_trace (located w)
             (match gpu_core_count_property (properties_of w (located w)) with
              | Some number => int64_wrap (number_value number)
              | None => 0
              end)
             (match model_property (properties_of w (located w)) with
              | Some model => model
              | None => ""
              end) |}
  end.
Proof.
  destruct w as [d e l p].
  destruct d; [|reflexivity].
  destruct e as [|e|e]; [|reflexivity|reflexivity].
  destruct l as [|h [|h2 l]]; [reflexivity| |reflexivity].
  cbv -[int64_wrap string_of_int64 max_clock_speed_of_model].
  destruct (p h) as [[[ty v ex]|] mo]; [|reflexivity].
  destruct ty; try reflexivity.
  destruct ex; [|reflexivity].
  destruct mo; reflexivity.
Qed.

End RunCases.

(* ================================================================== *)
(** * The clock-speed table *)

Section TableProperties.

(** A string that starts with one family prefix fails the tests for the
    prefixes that differ from it on a character. *)
Ltac with_prefix H :=
  let t := fresh "t" in
  apply CFStringHasPrefix_iff in H as [t ->].

Lemma prefix_M1_not_M2 (s : string) :
  CFStringHasPrefix s "Apple M2" = true ->
  CFStringHasPrefix s "Apple M1" = false.
Proof. intros H; with_prefix H; reflexivity. Qed.

Lemma prefix_A_not_M (s : string) :
  CFStringHasPrefix s "Apple A" = true ->
  CFStringHasPrefix s "Apple M" = false.
Proof. intros H; with_prefix H; reflexivity. Qed.

Lemma prefix_M_weaker (s : string) :
  CFStringHasPrefix s "Apple M" = false ->
  CFStringHasPrefix s "Apple M1" = false
  /\ CFStringHasPrefix s "Apple M2" = false.
Proof.
  intros H; split.
  - destruct (CFStringHasPrefix s "Apple M1") eqn:E; [|reflexivity].
    with_prefix E. discriminate H.
  - destruct (CFStringHasPrefix s "Apple M2") eqn:E; [|reflexivity].
    with_prefix E. discriminate H.
Qed.

(** C5: the table maps the documented model strings to the documented
    constants: prefix "Apple M1" with suffix "Max" gives 1296, the exact
    string "Apple M1" gives 1278, and prefix "Apple A" with suffix "A15"
    gives 1336. *)
Theorem documented_models_map_to_documented_constants :
  (forall model,
      CFStringHasPrefix model "Apple M1" = true ->
      CFStringHasSuffix model "Max" = true ->
      max_clock_speed_of_model model = 1296)
  /\ max_clock_speed_of_model "Apple M1" = 1278
  /\ (forall model,
         CFStringHasPrefix model "Apple A" = true ->
         CFStringHasSuffix model "A15" = true ->
         max_clock_speed_of_model model = 1336).
Proof.
  split; [|split].
  - intros model Hp Hs. unfold max_clock_speed_of_model. rewrite Hp.
    destruct (CFStringHasSuffix model "M1") eqn:E1; [suffix_clash Hs E1|].
    destruct (CFStringHasSuffix model "Pro"); [reflexivity|].
    rewrite Hs. reflexivity.
  - reflexivity.
  - intros model Hp Hs. unfold max_clock_speed_of_model.
    pose proof (prefix_A_not_M _ Hp) as HM.
    destruct (prefix_M_weaker _ HM) as [H1 H2].
    rewrite H1, H2, HM, Hp.
    destruct (CFStringHasSuffix model "A14") eqn:E1; [suffix_clash Hs E1|].
    rewrite Hs. reflexivity.
Qed.

Lemma documented_models_witness :
  max_clock_speed_of_model "Apple M1 Max" = 1296
  /\ max_clock_speed_of_model "Apple A15" = 1336.
Proof.
  split.
  - apply (proj1 documented_models_map_to_documented_constants
             "Apple M1 Max"); reflexivity.
  - apply (proj2 (proj2 documented_models_map_to_documented_constants)
             "Apple A15"); reflexivity.
Defined.

(** C6: a model string of a recognized family whose suffix is none of the
    listed tiers gets the family's default: 1278 in the M1 family (the
    value of "Apple M1" itself, and the value of "Apple M1 Foo"), 1398 in
    the M2 family, 1336 in the A family, and 1398 for every other string
    that starts with "Apple M", a family for which no tier is listed. *)
Theorem unlisted_suffix_gets_family_default :
  (forall model,
      CFStringHasPrefix model "Apple M1" = true ->
      CFStringHasSuffix model "M1" = false ->
      CFStringHasSuffix model "Pro" = false ->
      CFStringHasSuffix model "Max" = false ->
      CFStringHasSuffix model "Ultra" = false ->
      max_clock_speed_of_model model = 1278
      /\ max_clock_speed_of_model model = max_clock_speed_of_model "Apple M1")
  /\ max_clock_speed_of_model "Apple M1 Foo" = 1278
  /\ (forall model,
         CFStringHasPrefix model "Apple M2" = true ->
         CFStringHasSuffix model "M2" = false ->
         max_clock_speed_of_model model = 1398
         /\ max_clock_speed_of_model model
            = max_clock_speed_of_model "Apple M2")
  /\ (forall model,
         CFStringHasPrefix model "Apple A" = true ->
         CFStringHasSuffix model "A14" = false ->
         CFStringHasSuffix model "A15" = false ->
         CFStringHasSuffix model "A16" = false ->
         max_clock_speed_of_model model = 1336)
  /\ (forall model,
         CFStringHasPrefix model "Apple M" = true ->
         CFStringHasPrefix model "Apple M1" = false ->
         max_clock_speed_of_model model = 1398).
Proof.
  assert (M1 : forall model,
             CFStringHasPrefix model "Apple M1" = true ->
             CFStringHasSuffix model "M1" = false ->
             CFStringHasSuffix model "Pro" = false ->
             CFStringHasSuffix model "Max" = false ->
             CFStringHasSuffix model "Ultra" = false ->
             max_clock_speed_of_model model = 1278).
  { intros model Hp H1 H2 H3 H4. unfold max_clock_speed_of_model.
    now rewrite Hp, H1, H2, H3, H4. }
  assert (M2 : forall model,
             CFStringHasPrefix model "Apple M2" = true ->
             CFStringHasSuffix model "M2" = false ->
             max_clock_speed_of_model model = 1398).
  { intros model Hp H1. unfold max_clock_speed_of_model.
    now rewrite (prefix_M1_not_M2 _ Hp), Hp, H1. }
  split; [|split; [|split; [|split]]].
  - intros model Hp H1 H2 H3 H4. split; [now apply M1|].
    rewrite (M1 model) by assumption. reflexivity.
  - reflexivity.
  - intros model Hp H1. split; [now apply M2|].
    rewrite (M2 model) by assumption. reflexivity.
  - intros model Hp H1 H2 H3. unfold max_clock_speed_of_model.
    pose proof (prefix_A_not_M _ Hp) as HM.
    destruct (prefix_M_weaker _ HM) as [E1 E2].
    now rewrite E1, E2, HM, Hp, H1, H2, H3.
  - intros model HM H1. unfold max_clock_speed_of_model. rewrite H1, HM.
    destruct (CFStringHasPrefix model "Apple M2"); [|reflexivity].
    destruct (CFStringHasSuffix model "M2"); reflexivity.
Qed.

Lemma unlisted_suffix_witness :
  max_clock_speed_of_model "Apple M1 Foo" = 1278
  /\ max_clock_speed_of_model "Apple M2 Foo" = 1398
  /\ max_clock_speed_of_model "Apple A17 Pro" = 1336
  /\ max_clock_speed_of_model "Apple M3 Foo" = 1398.
Proof.
  split; [|split; [|split]].
  - apply (proj1 unlisted_suffix_gets_family_default "Apple M1 Foo");
      reflexivity.
  - apply (proj1 (proj2 (proj2 unlisted_suffix_gets_family_default))
             "Apple M2 Foo"); reflexivity.
  - apply (proj1 (proj2 (proj2 (proj2 unlisted_suffix_gets_family_default)))
             "Apple A17 Pro"); reflexivity.
  - apply (proj2 (proj2 (proj2 (proj2 unlisted_suffix_gets_family_default)))
             "Apple M3 Foo"); reflexivity.
Defined.

(** C7: a model string that starts with none of the recognized prefixes
    "Apple M1", "Apple M2", "Apple M", "Apple A" is mapped to 0. *)
Theorem unrecognized_family_gives_zero (model : string) :
  CFStringHasPrefix model "Apple M1" = false ->
  CFStringHasPrefix model "Apple M2" = false ->
  CFStringHasPrefix model "Apple M" = false ->
  CFStringHasPrefix model "Apple A" = false ->
  max_clock_speed_of_model model = 0.
Proof.
  intros H1 H2 HM HA. unfold max_clock_speed_of_model.
  now rewrite H1, H2, HM, HA.
Qed.

Lemma unrecognized_family_witness :
  max_clock_speed_of_model "Intel Iris" = 0.
Proof.
  apply (unrecognized_family_gives_zero "Intel Iris"); reflexivity.
Defined.

(** C10: the lookup is a total function of the model string; its value is
    one of 0, 1278, 1296, 1336, 1398, hence never negative; every string
    that starts with "Apple M2" is mapped to 1398 whatever its suffix. *)
Theorem clock_speed_range (model : string) :
  (exists mhz, max_clock_speed_of_model model = mhz
               /\ In mhz [0; 1278; 1296; 1336; 1398])
  /\ 0 <= max_clock_speed_of_model model
  /\ (CFStringHasPrefix model "Apple M2" = true ->
      max_clock_speed_of_model model = 1398).
Proof.
  assert (R : In (max_clock_speed_of_model model)
                [0; 1278; 1296; 1336; 1398]).
  { unfold max_clock_speed_of_model.
    repeat match goal with
           | |- context [if ?b then _ else _] => destruct b
           end; simpl; auto 6. }
  split; [eauto|]. split.
  - simpl in R. lia.
  - intros H. unfold max_clock_speed_of_model.
    rewrite (prefix_M1_not_M2 _ H), H.
    destruct (CFStringHasSuffix model "M2"); reflexivity.
Qed.

Lemma clock_speed_range_witness :
  max_clock_speed_of_model "Apple M2 Ultra" = 1398.
Proof.
  apply (clock_speed_range "Apple M2 Ultra"). reflexivity.
Defined.

End TableProperties.

(* ================================================================== *)
(** * The process *)

Section ProcessProperties.

Lemma CFNumberType_eqb_eq (a b : CFNumberType) :
  CFNumberType_eqb a b = true <-> a = b.
Proof. destruct a, b; simpl; split; intros H; congruence. Qed.

Lemma CFNumberType_eqb_neq (a b : CFNumberType) :
  a <> b -> CFNumberType_eqb a b = false.
Proof.
  intros H. destruct (CFNumberType_eqb a b) eqn:E; [|reflexivity].
  apply CFNumberType_eqb_eq in E. contradiction.
Qed.

(** What a reported failure looks like from outside. *)
Lemma report_is_fatal (w : World) (f : failure) :
  first_failure w = Some f ->
  fatal (run w) (failure_message f)
  /\ wait_status (exit_status (run w)) = 255
  /\ events (run w)
     = (calls_before w f ++ error_report (failure_message f))%list.
Proof.
  intros H. rewrite run_cases, H. unfold fatal; simpl.
  repeat split.
  - destruct f; try reflexivity. simpl.
    destruct (key =? "model")%string; reflexivity.
  - destruct f; try reflexivity. simpl.
    destruct (key =? "model")%string; reflexivity.
Qed.

(** A run in which no check fires prints and returns [0]. *)
Lemma success_is_silent_on_stderr (w : World) :
  first_failure w = None ->
  exit_status (run w) = 0 /\ stderr w = "".
Proof.
  intros H. unfold stderr. rewrite run_cases, H. split; reflexivity.
Qed.

(** Every documented cause makes some check fire, and every check that
    fires is a documented cause. *)
Lemma cause_fires (w : World) (c : failure) :
  failure_cause w c -> exists f, first_failure w = Some f.
Proof.
  intros C. unfold first_failure.
  destruct (match_dictionary_built w) eqn:D; cbn [negb]; [|eauto].
  destruct (matching_error w =? 0) eqn:E; cbn [negb]; [|eauto].
  destruct (2 <=? List.length (matching_entries w))%nat eqn:L; [eauto|].
  cbv zeta.
  destruct (gpu_core_count_property (properties_of w (located w)))
    as [n|] eqn:P; [|eauto].
  destruct (CFNumberType_eqb (number_type n) kCFNumberSInt64Type) eqn:T;
    cbn [negb]; [|eauto].
  destruct (number_exact n) eqn:X; cbn [negb]; [|eauto].
  destruct (model_property (properties_of w (located w))) eqn:Mo; [|eauto].
  exfalso. apply Z.eqb_eq in E. apply Nat.leb_gt in L.
  apply CFNumberType_eqb_eq in T.
  inversion C; subst; try congruence.
  unfold located, properties_of in P.
  destruct (matching_entries w) as [|h [|h2 l]]; simpl in *;
    try discriminate; try lia; congruence.
Qed.

Lemma fired_is_cause (w : World) (f : failure) :
  first_failure w = Some f -> failure_cause w f.
Proof.
  unfold first_failure.
  destruct (match_dictionary_built w) eqn:D; cbn [negb];
    [|intros [= <-]; now constructor].
  destruct (matching_error w =? 0) eqn:E; cbn [negb];
    [|intros [= <-]; constructor; now apply Z.eqb_neq].
  destruct (2 <=? List.length (matching_entries w))%nat eqn:L;
    [intros [= <-]; constructor; apply Nat.leb_le in L; lia|].
  destruct (gpu_core_count_property (properties_of w (located w)))
    as [n|] eqn:P; [|intros [= <-]; now constructor].
  destruct (CFNumberType_eqb (number_type n) kCFNumberSInt64Type) eqn:T;
    cbn [negb].
  - destruct (number_exact n) eqn:X; cbn [negb].
    + destruct (model_property (properties_of w (located w))) eqn:Mo;
        [discriminate | intros [= <-]; now constructor].
    + intros [= <-]. now apply core_count_value_not_extracted with n.
  - intros [= <-]. apply core_count_type_mismatch with n; [assumption|].
    intros Heq. rewrite Heq in T. discriminate.
Qed.

(** No question is put to the registry twice. *)
Lemma queries_once (w : World) (f : failure) :
  NoDup (queries
           (calls_before w f ++ error_report (failure_message f))%list).
Proof.
  destruct f; simpl;
    try destruct (key =? "model")%string eqn:K; simpl;
    repeat (constructor; [simpl; intuition discriminate|]);
    try constructor.
Qed.

(** C1: with one matching entry whose core count is the 64-bit signed
    number 10 and whose model is "Apple M2", the program writes the two
    lines [The GPU has 10 cores.] and [The GPU runs at 1398 MHz.] on
    standard output, nothing on the error stream, and exits with 0. *)
Theorem one_m2_gpu_prints_both_lines
    (w : World) (h : positive) (number : CFNumber) :
  match_dictionary_built w = true ->
  matching_error w = 0 ->
  matching_entries w = [h] ->
  gpu_core_count_property (properties w h) = Some number ->
  number_type number = kCFNumberSInt64Type ->
  number_value number = 10 ->
  number_exact number = true ->
  model_property (properties w h) = Some "Apple M2" ->
  stdout w = "The GPU has 10 cores." ++ endl
             ++ "The GPU runs at 1398 MHz." ++ endl
  /\ stderr w = ""
  /\ exit_status (run w) = 0.
Proof.
  intros D E L P T V X Mo. unfold stdout, stderr.
  rewrite run_cases.
  unfold first_failure, located, properties_of.
  rewrite D, E, L; simpl. rewrite P, T, X, Mo, V; simpl.
  repeat split.
Qed.

Lemma one_m2_gpu_witness :
  stdout m2_world = "The GPU has 10 cores." ++ endl
                    ++ "The GPU runs at 1398 MHz." ++ endl
  /\ stderr m2_world = ""
  /\ exit_status (run m2_world) = 0.
Proof.
  apply (one_m2_gpu_prints_both_lines m2_world 7%positive
           (mkCFNumber kCFNumberSInt64Type 10 true)); reflexivity.
Defined.

(** C2: when the registry query yields no matching entry, the run ends in
    a fatal error: a message on the error stream, exit status [-1] (255 for
    the parent), nothing on standard output.  Unless an earlier check
    fires, the message is the one for a missing ['gpu-core-count']
    property, found when the null handle is read. *)
Theorem no_matching_device_is_fatal (w : World) :
  matching_entries w = [] ->
  fatal (run w)
    (if negb (match_dictionary_built w)
     then "Could not find AGXAccelerator service."
     else if negb (matching_error w =? 0)
          then "No objects match AGXAccelerator service."
          else "Could not find 'gpu-core-count' property.")
  /\ wait_status (exit_status (run w)) = 255
  /\ stdout w = "".
Proof.
  intros L.
  assert (F : first_failure w =
              Some (if negb (match_dictionary_built w)
                    then LookupConstruction
                    else if negb (matching_error w =? 0)
                         then ServiceQuery
                         else PropertyMissing "gpu-core-count")).
  { unfold first_failure, located, properties_of. rewrite L; simpl.
    destruct (match_dictionary_built w); simpl; [|reflexivity].
    destruct (matching_error w =? 0); reflexivity. }
  destruct (report_is_fatal w _ F) as (Hf & Hw & _).
  split; [|split; [exact Hw | apply Hf]].
  destruct (match_dictionary_built w); simpl in *; [|exact Hf].
  destruct (matching_error w =? 0); simpl in *; exact Hf.
Qed.

Lemma no_matching_device_witness :
  fatal (run (sample_world [] kCFNumberSInt64Type 10 "Apple M2"))
    "Could not find 'gpu-core-count' property."
  /\ wait_status
       (exit_status (run (sample_world [] kCFNumberSInt64Type 10 "Apple M2")))
     = 255
  /\ stdout (sample_world [] kCFNumberSInt64Type 10 "Apple M2") = "".
Proof.
  apply (no_matching_device_is_fatal
           (sample_world [] kCFNumberSInt64Type 10 "Apple M2")).
  reflexivity.
Defined.

(** C3: when the registry query yields two or more matching entries, the
    run ends in a fatal error: a message on the error stream, exit status
    [-1] (255 for the parent), nothing on standard output.  Unless an
    earlier check fires, the message is [Found multiple GPUs.] *)
Theorem several_matching_devices_are_fatal (w : World) :
  (2 <= List.length (matching_entries w))%nat ->
  fatal (run w)
    (if negb (match_dictionary_built w)
     then "Could not find AGXAccelerator service."
     else if negb (matching_error w =? 0)
          then "No objects match AGXAccelerator service."
          else "Found multiple GPUs.")
  /\ wait_status (exit_status (run w)) = 255
  /\ stdout w = "".
Proof.
  intros L.
  assert (F : first_failure w =
              Some (if negb (match_dictionary_built w)
                    then LookupConstruction
                    else if negb (matching_error w =? 0)
                         then ServiceQuery
                         else Cardinality)).
  { unfold first_failure. apply Nat.leb_le in L. rewrite L.
    destruct (match_dictionary_built w); simpl; [|reflexivity].
    destruct (matching_error w =? 0); reflexivity. }
  destruct (report_is_fatal w _ F) as (Hf & Hw & _).
  split; [|split; [exact Hw | apply Hf]].
  destruct (match_dictionary_built w); simpl in *; [|exact Hf].
  destruct (matching_error w =? 0); simpl in *; exact Hf.
Qed.

Lemma several_matching_devices_witness :
  fatal (run (sample_world [3%positive; 4%positive]
                kCFNumberSInt64Type 10 "Apple M2"))
    "Found multiple GPUs.".
Proof.
  apply (several_matching_devices_are_fatal
           (sample_world [3%positive; 4%positive]
              kCFNumberSInt64Type 10 "Apple M2")).
  simpl. lia.
Defined.

(** C4, as documented, at one M2 GPU with ten cores: the run succeeds, and
    its phases are not in the documented order, because the handle is
    released before the two lines are printed. *)
Lemma documented_order_fails_on_m2 :
  exit_status (run m2_world) = 0
  /\ phases (events (run m2_world)) <> documented_order
  /\ exists before after,
       events (run m2_world)
       = (before
          ++ CallIOObjectRelease (RegistryEntry 7)
             :: Cout "The GPU has " :: after)%list.
Proof.
  split; [reflexivity|]. split.
  - intros H. vm_compute in H. discriminate H.
  - exists (locate_calls ++ core_count_calls 7
            ++ [CallIORegistryEntrySearchCFProperty 7 "model";
                TableLookup "Apple M2"])%list.
    eexists. reflexivity.
Qed.

(** C4, amended: in every successful run the phases occur in the order
    locate the entry, read the core count, read the model string, look up
    the clock speed, release the handle, print the two lines, exit. *)
Theorem successful_run_follows_program_order (w : World) :
  exit_status (run w) = 0 ->
  phases (events (run w)) = program_order.
Proof.
  rewrite run_cases. destruct (first_failure w) as [f|]; simpl.
  - discriminate.
  - intros _. reflexivity.
Qed.

Lemma successful_run_order_witness :
  phases (events (run m2_world)) = program_order.
Proof.
  apply (successful_run_follows_program_order m2_world). reflexivity.
Defined.

(** C8: when the entry handed to the reader has a ['gpu-core-count']
    number whose declared type is not the 64-bit signed one, the run ends
    in a fatal error, and its trace holds neither the search for the
    ['model'] property nor the table lookup.  When the locator succeeds,
    the message is ['gpu-core-count' not sInt64.] *)
Theorem wrong_core_count_type_stops_before_clock_speed
    (w : World) (h : positive) (rest : list positive) (number : CFNumber) :
  matching_entries w = h :: rest ->
  gpu_core_count_property (properties w h) = Some number ->
  number_type number <> kCFNumberSInt64Type ->
  (exists message,
      fatal (run w) message /\ wait_status (exit_status (run w)) = 255)
  /\ existsb clock_speed_logic (events (run w)) = false
  /\ (match_dictionary_built w = true ->
      matching_error w = 0 ->
      rest = [] ->
      fatal (run w) "'gpu-core-count' not sInt64.").
Proof.
  intros L P T. apply CFNumberType_eqb_neq in T.
  assert (F : first_failure w =
              Some (if negb (match_dictionary_built w)
                    then LookupConstruction
                    else if negb (matching_error w =? 0) then ServiceQuery
                    else match rest with
                         | [] => PropertyTypeMismatch
                         | _ :: _ => Cardinality
                         end)).
  { unfold first_failure, located, properties_of. rewrite L.
    destruct (match_dictionary_built w); cbn [negb]; [|reflexivity].
    destruct (matching_error w =? 0); cbn [negb]; [|reflexivity].
    destruct rest as [|h2 rest]; [|reflexivity].
    simpl. rewrite P, T. reflexivity. }
  destruct (report_is_fatal w _ F) as (Hf & Hw & Ht).
  split; [eauto|]. split.
  - rewrite Ht.
    destruct (match_dictionary_built w); cbn [negb]; [|reflexivity].
    destruct (matching_error w =? 0); cbn [negb]; [|reflexivity].
    destruct rest; reflexivity.
  - intros D E R. rewrite D, E, R in Hf. exact Hf.
Qed.

Lemma wrong_core_count_type_witness :
  fatal (run (sample_world [3%positive] kCFNumberSInt32Type 10 "Apple M2"))
    "'gpu-core-count' not sInt64."
  /\ existsb clock_speed_logic
       (events (run (sample_world [3%positive] kCFNumberSInt32Type 10
                       "Apple M2")))
     = false.
Proof.
  destruct (wrong_core_count_type_stops_before_clock_speed
              (sample_world [3%positive] kCFNumberSInt32Type 10 "Apple M2")
              3%positive [] (mkCFNumber kCFNumberSInt32Type 10 true))
    as (_ & Hquiet & Hmessage);
    [reflexivity | reflexivity | discriminate |].
  split; [apply Hmessage; reflexivity | exact Hquiet].
Defined.

(** C9: whichever documented cause holds (match query not built, service
    query error, not exactly one entry, property missing, wrong number
    type, value not extracted), the run reports one failure: the message
    goes to the error stream, the process exits with status [-1] (255 for
    the parent) whatever the cause, nothing is on standard output, the
    trace ends with the report, and no registry question is asked twice. *)
Theorem every_failure_is_fatal (w : World) (cause : failure) :
  failure_cause w cause ->
  exists reported,
    failure_cause w reported
    /\ fatal (run w) (failure_message reported)
    /\ exit_status (run w) = -1
    /\ wait_status (exit_status (run w)) = 255
    /\ stdout w = ""
    /\ events (run w)
       = (calls_before w reported
          ++ error_report (failure_message reported))%list
    /\ NoDup (queries (events (run w))).
Proof.
  intros C. destruct (cause_fires w cause C) as [f F].
  destruct (report_is_fatal w f F) as (Hf & Hw & Ht).
  exists f. split; [now apply fired_is_cause|].
  split; [exact Hf|]. split; [apply Hf|]. split; [exact Hw|].
  split; [apply Hf|]. split; [exact Ht|].
  rewrite Ht. apply queries_once.
Qed.

Lemma every_failure_witness :
  exists reported,
    fatal (run (sample_world [] kCFNumberSInt64Type 10 "Apple M2"))
      (failure_message reported)
    /\ exit_status (run (sample_world [] kCFNumberSInt64Type 10 "Apple M2"))
       = -1.
Proof.
  destruct (every_failure_is_fatal
              (sample_world [] kCFNumberSInt64Type 10 "Apple M2")
              Cardinality) as (f & _ & Hf & Hs & _).
  - apply cardinality_violated. simpl. lia.
  - exists f. split; [exact Hf | exact Hs].
Defined.

End ProcessProperties.

(* ================================================================== *)
(** * More on the clock-speed table *)

Section TableShape.

Ltac split_prefix H :=
  let t := fresh "t" in
  apply CFStringHasPrefix_iff in H as [t ->].

Lemma M_excludes_A (s : string) :
  CFStringHasPrefix s "Apple M" = true ->
  CFStringHasPrefix s "Apple A" = false.
Proof. intros H; split_prefix H; reflexivity. Qed.

(** X1: the value 0 is returned exactly for the model strings that start
    neither with "Apple M" nor with "Apple A"; every string of a known
    family gets a positive clock speed. *)
Theorem zero_exactly_for_unknown_families (model : string) :
  max_clock_speed_of_model model = 0
  <-> CFStringHasPrefix model "Apple M" = false
      /\ CFStringHasPrefix model "Apple A" = false.
Proof.
  split.
  - intros Z0.
    destruct (CFStringHasPrefix model "Apple M") eqn:HM.
    + exfalso. revert Z0. unfold max_clock_speed_of_model. rewrite HM.
      repeat match goal with
             | |- context [if ?b then _ else _] => destruct b
             end; discriminate.
    + destruct (CFStringHasPrefix model "Apple A") eqn:HA; [|auto].
      exfalso. revert Z0. unfold max_clock_speed_of_model.
      destruct (prefix_M_weaker _ HM) as [H1 H2].
      rewrite H1, H2, HM, HA.
      repeat match goal with
             | |- context [if ?b then _ else _] => destruct b
             end; discriminate.
  - intros [HM HA]. unfold max_clock_speed_of_model.
    destruct (prefix_M_weaker _ HM) as [H1 H2].
    now rewrite H1, H2, HM, HA.
Qed.

Lemma zero_exactly_witness :
  max_clock_speed_of_model "AMD Radeon Pro 5500M" = 0
  /\ CFStringHasPrefix "Apple M3 Max" "Apple M" = true.
Proof.
  split.
  - apply (proj2 (zero_exactly_for_unknown_families "AMD Radeon Pro 5500M")).
    split; reflexivity.
  - destruct (CFStringHasPrefix "Apple M3 Max" "Apple M") eqn:E;
      [reflexivity|].
    assert (Z0 : max_clock_speed_of_model "Apple M3 Max" = 0).
    { apply (proj2 (zero_exactly_for_unknown_families "Apple M3 Max")).
      split; [exact E | reflexivity]. }
    discriminate Z0.
Defined.

(** X2: every model string that starts with "Apple M" but not with
    "Apple M1" gets 1398: the M2 family whatever the suffix, and every
    other M generation. *)
Theorem later_M_generations_get_1398 (model : string) :
  CFStringHasPrefix model "Apple M" = true ->
  CFStringHasPrefix model "Apple M1" = false ->
  max_clock_speed_of_model model = 1398.
Proof.
  intros HM H1. unfold max_clock_speed_of_model. rewrite H1, HM.
  destruct (CFStringHasPrefix model "Apple M2"); [|reflexivity].
  destruct (CFStringHasSuffix model "M2"); reflexivity.
Qed.

Lemma later_M_generations_witness :
  max_clock_speed_of_model "Apple M3 Max" = 1398.
Proof.
  apply (later_M_generations_get_1398 "Apple M3 Max"); reflexivity.
Defined.

(** X3: within the M1 family the value is 1296 exactly when the string
    ends in "Pro", "Max" or "Ultra", and 1278 exactly when it ends in none
    of them; ending in "M1" excludes the three tiers. *)
Theorem M1_family_tiers (model : string) :
  CFStringHasPrefix model "Apple M1" = true ->
  (max_clock_speed_of_model model = 1296
   <-> CFStringHasSuffix model "Pro" = true
       \/ CFStringHasSuffix model "Max" = true
       \/ CFStringHasSuffix model "Ultra" = true)
  /\ (max_clock_speed_of_model model = 1278
      <-> CFStringHasSuffix model "Pro" = false
          /\ CFStringHasSuffix model "Max" = false
          /\ CFStringHasSuffix model "Ultra" = false).
Proof.
  intros Hp. unfold max_clock_speed_of_model. rewrite Hp.
  destruct (CFStringHasSuffix model "M1") eqn:E1.
  - assert (P : CFStringHasSuffix model "Pro" = false).
    { destruct (CFStringHasSuffix model "Pro") eqn:E; [|reflexivity].
      suffix_clash E1 E. }
    assert (X : CFStringHasSuffix model "Max" = false).
    { destruct (CFStringHasSuffix model "Max") eqn:E; [|reflexivity].
      suffix_clash E1 E. }
    assert (U : CFStringHasSuffix model "Ultra" = false).
    { destruct (CFStringHasSuffix model "Ultra") eqn:E; [|reflexivity].
      suffix_clash E1 E. }
    rewrite P, X, U. split; split; try discriminate; auto.
    intros [H|[H|H]]; discriminate H.
  - destruct (CFStringHasSuffix model "Pro");
      destruct (CFStringHasSuffix model "Max");
      destruct (CFStringHasSuffix model "Ultra");
      split; split; intros H; auto;
      try discriminate H;
      try (destruct H as (A & B & C); discriminate);
      try (destruct H as [A|[A|A]]; discriminate A).
Qed.

Lemma M1_family_tiers_witness :
  max_clock_speed_of_model "Apple M1 Ultra" = 1296
  /\ max_clock_speed_of_model "Apple M1 Lite" = 1278.
Proof.
  destruct (M1_family_tiers "Apple M1 Ultra") as [T _]; [reflexivity|].
  destruct (M1_family_tiers "Apple M1 Lite") as [_ B]; [reflexivity|].
  split.
  - apply (proj2 T). right; right; reflexivity.
  - apply (proj2 B). repeat split.
Defined.

(** X4: within the A family the value is 1278 exactly when the string
    ends in "A14", and 1336 for every other string of the family. *)
Theorem A_family_tiers (model : string) :
  CFStringHasPrefix model "Apple A" = true ->
  (max_clock_speed_of_model model = 1278
   <-> CFStringHasSuffix model "A14" = true)
  /\ (max_clock_speed_of_model model = 1336
      <-> CFStringHasSuffix model "A14" = false).
Proof.
  intros Hp. unfold max_clock_speed_of_model.
  assert (HM : CFStringHasPrefix model "Apple M" = false).
  { destruct (CFStringHasPrefix model "Apple M") eqn:E; [|reflexivity].
    rewrite (M_excludes_A _ E) in Hp. discriminate. }
  destruct (prefix_M_weaker _ HM) as [H1 H2].
  rewrite H1, H2, HM, Hp.
  destruct (CFStringHasSuffix model "A14").
  - split; split; intros H; auto; discriminate H.
  - destruct (CFStringHasSuffix model "A15");
      destruct (CFStringHasSuffix model "A16");
      split; split; intros H; auto; discriminate H.
Qed.

Lemma A_family_tiers_witness :
  max_clock_speed_of_model "Apple A14" = 1278
  /\ max_clock_speed_of_model "Apple A12Z" = 1336.
Proof.
  destruct (A_family_tiers "Apple A14") as [T _]; [reflexivity|].
  destruct (A_family_tiers "Apple A12Z") as [_ B]; [reflexivity|].
  split; [apply (proj2 T) | apply (proj2 B)]; reflexivity.
Defined.

End TableShape.

(* ================================================================== *)
(** * The functions one by one, from any state *)

Section FunctionContracts.

Variable w : World.

(** [get_gpu_entry], case by case. *)
Lemma get_gpu_entry_cases (st : state) :
  get_gpu_entry w st =
  if negb (match_dictionary_built w) then
    (Exit (-1),
     {| entry_iterator := entry_iterator st;
        trace := trace st ++ calls_before w LookupConstruction
                 ++ error_report (failure_message LookupConstruction) |})
  else if negb (matching_error w =? 0) then
    (Exit (-1),
     {| entry_iterator := entry_iterator st;
        trace := trace st ++ calls_before w ServiceQuery
                 ++ error_report (failure_message ServiceQuery) |})
  else
    match matching_entries w with
    | _ :: _ :: rest =>
        (Exit (-1),
         {| entry_iterator := rest;
            trace := trace st ++ calls_before w Cardinality
                     ++ error_report (failure_message Cardinality) |})
    | _ =>
        (Ret (located w),
         {| entry_iterator := []; trace := trace st ++ locate_calls |})
    end.
Proof.
  destruct w as [d e l p].
  destruct d; [|cbv -[app]; repeat rewrite <- app_assoc; reflexivity].
  destruct e as [|e|e];
    [|cbv -[app]; repeat rewrite <- app_assoc; reflexivity ..].
  destruct l as [|h [|h2 l]];
    cbv -[app]; repeat rewrite <- app_assoc; reflexivity.
Qed.

(** [get_gpu_core_count] on a live entry, case by case. *)
Lemma get_gpu_core_count_cases (h : positive) (st : state) :
  get_gpu_core_count w (Zpos h) st =
  let searched :=
    CallIORegistryEntrySearchCFProperty (Zpos h) "gpu-core-count" in
  match gpu_core_count_property (properties w h) with
  | None =>
      (Exit (-1),
       {| entry_iterator := entry_iterator st;
          trace := trace st ++ [searched]
                   ++ error_report
                        "Could not find 'gpu-core-count' property." |})
  | Some number =>
      if negb (CFNumberType_eqb (number_type number) kCFNumberSInt64Type)
      then
        (Exit (-1),
         {| entry_iterator := entry_iterator st;
            trace := trace st ++ [searched; CallCFNumberGetType]
                     ++ error_report "'gpu-core-count' not sInt64." |})
      else if negb (number_exact number) then
        (Exit (-1),
         {| entry_iterator := entry_iterator st;
            trace := trace st
                     ++ [searched; CallCFNumberGetType; CallCFNumberGetValue]
                     ++ error_report
                          "Could not fetch 'gpu-core-count' value." |})
      else
        (Ret (int64_wrap (number_value number)),
         {| entry_iterator := entry_iterator st;
            trace := trace st ++ core_count_calls (Zpos h) |})
  end.
Proof.
  destruct w as [d e l p]. cbv -[app int64_wrap].
  destruct (p h) as [[[ty v ex]|] mo];
    [|repeat rewrite <- app_assoc; reflexivity].
  destruct ty; try (repeat rewrite <- app_assoc; reflexivity).
  destruct ex; repeat rewrite <- app_assoc; reflexivity.
Qed.

Lemma int64_wrap_small (z : Z) :
  - 2 ^ 63 <= z < 2 ^ 63 -> int64_wrap z = z.
Proof.
  intros H. unfold int64_wrap. rewrite Z.mod_small; lia.
Qed.

(** X5: when the dictionary is built, the query reports no error and the
    iterator is empty, [get_gpu_entry] returns the null handle as if it
    were an entry: no message is written and the process is not ended. *)
Theorem locator_returns_null_when_nothing_matches (st : state) :
  match_dictionary_built w = true ->
  matching_error w = 0 ->
  matching_entries w = [] ->
  get_gpu_entry w st
  = (Ret IO_OBJECT_NULL,
     {| entry_iterator := []; trace := (trace st ++ locate_calls)%list |}).
Proof.
  intros D E L. rewrite get_gpu_entry_cases, D, E, L.
  unfold located. rewrite L. reflexivity.
Qed.

(** X6: [get_gpu_entry] returns exactly when the dictionary is built, the
    query reports no error and the iterator holds at most one entry; it
    then returns the first entry (or the null handle), has drained the
    iterator and released it once. *)
Theorem locator_returns_iff (st : state) :
  (exists entry st', get_gpu_entry w st = (Ret entry, st'))
  <-> match_dictionary_built w = true
      /\ matching_error w = 0
      /\ (List.length (matching_entries w) <= 1)%nat.
Proof.
  rewrite get_gpu_entry_cases. split.
  - intros (entry & st' & H).
    destruct (match_dictionary_built w); [|discriminate H].
    destruct (matching_error w =? 0) eqn:E; [|discriminate H].
    apply Z.eqb_eq in E.
    destruct (matching_entries w) as [|h [|h2 l]];
      [simpl; auto | simpl; auto | discriminate H].
  - intros (D & E & L). rewrite D, E.
    destruct (matching_entries w) as [|h [|h2 l]];
      [simpl; eauto | simpl; eauto | simpl in L; lia].
Qed.

(** X7: whenever [get_gpu_entry] returns, its result is the first entry
    of the iterator (the null handle when there is none), the iterator is
    drained, and the calls made are the two queries, two
    [IOIteratorNext] and one release of the iterator. *)
Theorem locator_result (st st' : state) (entry : io_registry_entry_t) :
  get_gpu_entry w st = (Ret entry, st') ->
  entry = located w
  /\ entry_iterator st' = []
  /\ trace st' = (trace st ++ locate_calls)%list
  /\ count is_iterator_release locate_calls = 1%nat
  /\ count is_entry_release locate_calls = 0%nat.
Proof.
  rewrite get_gpu_entry_cases. intros H.
  destruct (match_dictionary_built w); [|discriminate H].
  destruct (matching_error w =? 0); [|discriminate H].
  destruct (matching_entries w) as [|h [|h2 l]];
    try discriminate H;
    simpl in H; injection H as <- <-; repeat split.
Qed.

(** X8: whenever [get_gpu_entry] ends the process, the status is [-1],
    the trace ends with the report of one of its three messages, and
    nothing was released before: neither the iterator nor an entry. *)
Theorem locator_failure_releases_nothing
    (st st' : state) (status : Z) :
  get_gpu_entry w st = (Exit status, st') ->
  status = -1
  /\ exists calls message,
       In message ["Could not find AGXAccelerator service.";
                   "No objects match AGXAccelerator service.";
                   "Found multiple GPUs."]
       /\ trace st' = (trace st ++ calls ++ error_report message)%list
       /\ count is_iterator_release calls = 0%nat
       /\ count is_entry_release calls = 0%nat.
Proof.
  rewrite get_gpu_entry_cases. intros H.
  destruct (match_dictionary_built w); cbn [negb] in H.
  - destruct (matching_error w =? 0); cbn [negb] in H.
    + destruct (matching_entries w) as [|h [|h2 l]];
        try discriminate H.
      injection H as <- <-. split; [reflexivity|].
      exists (calls_before w Cardinality), (failure_message Cardinality).
      simpl; auto 6.
    + injection H as <- <-. split; [reflexivity|].
      exists (calls_before w ServiceQuery), (failure_message ServiceQuery).
      simpl; auto 6.
  - injection H as <- <-. split; [reflexivity|].
    exists (calls_before w LookupConstruction),
      (failure_message LookupConstruction).
    simpl; auto 6.
Qed.

(** X9: on a live entry [get_gpu_core_count] returns exactly when the
    property exists, its declared type is the 64-bit signed one and the
    value is extracted; the result is then the stored value as an
    [int64_t], the number is released once, and the iterator is left as
    it was. *)
Theorem core_count_reader_returns_iff
    (h : positive) (st st' : state) (value : Z) :
  get_gpu_core_count w (Zpos h) st = (Ret value, st')
  <-> exists number,
        gpu_core_count_property (properties w h) = Some number
        /\ number_type number = kCFNumberSInt64Type
        /\ number_exact number = true
        /\ value = int64_wrap (number_value number)
        /\ st' = {| entry_iterator := entry_iterator st;
                    trace := (trace st ++ core_count_calls (Zpos h))%list |}.
Proof.
  rewrite get_gpu_core_count_cases. cbv zeta. split.
  - intros H.
    destruct (gpu_core_count_property (properties w h)) as [n|];
      [|discriminate H].
    destruct (CFNumberType_eqb (number_type n) kCFNumberSInt64Type) eqn:T;
      cbn [negb] in H; [|discriminate H].
    destruct (number_exact n) eqn:X; cbn [negb] in H; [|discriminate H].
    injection H as <- <-. exists n.
    apply CFNumberType_eqb_eq in T. auto.
  - intros (n & P & T & X & -> & ->). rewrite P, T, X. reflexivity.
Qed.

(** X10: whenever [get_gpu_core_count] ends the process on a live entry,
    the status is [-1] and [CFRelease] has not been called: the number
    found with a wrong type or an unreadable value is not released. *)
Theorem core_count_reader_failure_skips_release
    (h : positive) (st st' : state) (status : Z) :
  get_gpu_core_count w (Zpos h) st = (Exit status, st') ->
  status = -1
  /\ entry_iterator st' = entry_iterator st
  /\ exists calls message,
       In message ["Could not find 'gpu-core-count' property.";
                   "'gpu-core-count' not sInt64.";
                   "Could not fetch 'gpu-core-count' value."]
       /\ trace st' = (trace st ++ calls ++ error_report message)%list
       /\ count is_cf_release calls = 0%nat.
Proof.
  rewrite get_gpu_core_count_cases. cbv zeta. intros H.
  destruct (gpu_core_count_property (properties w h)) as [n|].
  - destruct (CFNumberType_eqb (number_type n) kCFNumberSInt64Type);
      cbn [negb] in H.
    + destruct (number_exact n); cbn [negb] in H; [discriminate H|].
      injection H as <- <-. repeat split.
      exists [CallIORegistryEntrySearchCFProperty (Zpos h) "gpu-core-count";
              CallCFNumberGetType; CallCFNumberGetValue],
        "Could not fetch 'gpu-core-count' value.".
      simpl; auto 6.
    + injection H as <- <-. repeat split.
      exists [CallIORegistryEntrySearchCFProperty (Zpos h) "gpu-core-count";
              CallCFNumberGetType],
        "'gpu-core-count' not sInt64.".
      simpl; auto 6.
  - injection H as <- <-. repeat split.
    exists [CallIORegistryEntrySearchCFProperty (Zpos h) "gpu-core-count"],
      "Could not find 'gpu-core-count' property.".
    simpl; auto 6.
Qed.

Lemma stderr_of_app (a b : list event) :
  stderr_of (a ++ b) = stderr_of a ++ stderr_of b.
Proof.
  induction a as [|e a IH]; [reflexivity|].
  destruct e; simpl; try exact IH.
  rewrite IH. clear IH.
  induction text as [|c text IHt]; simpl; [reflexivity|].
  now rewrite IHt.
Qed.

Lemma stdout_of_app (a b : list event) :
  stdout_of (a ++ b) = stdout_of a ++ stdout_of b.
Proof.
  induction a as [|e a IH]; [reflexivity|].
  destruct e; simpl; try exact IH.
  rewrite IH. clear IH.
  induction text as [|c text IHt]; simpl; [reflexivity|].
  now rewrite IHt.
Qed.

(** X19: [release_assert] guards what follows it.  When the condition
    holds the rest of the program runs from an unchanged state; when it
    does not, the rest never runs: the process exits with [-1], the error
    stream gains a line feed, the message and a line feed, and standard
    output gains nothing. *)
Theorem release_assert_guards_continuation
    {B : Type} (condition : bool) (message : string)
    (rest : M B) (st : state) :
  (condition = true ->
   (release_assert condition message ;; rest) st = rest st)
  /\ (condition = false ->
      exists st',
        (release_assert condition message ;; rest) st = (Exit (-1), st')
        /\ entry_iterator st' = entry_iterator st
        /\ trace st' = (trace st ++ error_report message)%list
        /\ stderr_of (trace st')
           = stderr_of (trace st) ++ endl ++ message ++ endl
        /\ stdout_of (trace st') = stdout_of (trace st)).
Proof.
  split; intros ->; [reflexivity|].
  exists {| entry_iterator := entry_iterator st;
            trace := (trace st ++ error_report message)%list |}.
  split.
  - cbv -[app]. repeat rewrite <- app_assoc. reflexivity.
  - split; [reflexivity|]. split; [reflexivity|]. simpl trace. split.
    + rewrite stderr_of_app. reflexivity.
    + rewrite stdout_of_app. simpl.
      induction (stdout_of (trace st)) as [|c t IH]; simpl;
        [reflexivity | now rewrite IH].
Qed.

End FunctionContracts.

Section ContractWitnesses.

Lemma locator_returns_null_witness :
  get_gpu_entry (sample_world [] kCFNumberSInt64Type 10 "Apple M2") initial
  = (Ret IO_OBJECT_NULL,
     {| entry_iterator := []; trace := locate_calls |}).
Proof.
  apply (locator_returns_null_when_nothing_matches
           (sample_world [] kCFNumberSInt64Type 10 "Apple M2") initial);
    reflexivity.
Defined.

Lemma locator_returns_iff_witness :
  exists entry st', get_gpu_entry m2_world initial = (Ret entry, st').
Proof.
  apply (proj2 (locator_returns_iff m2_world initial)).
  repeat split. simpl. lia.
Defined.

Lemma locator_result_witness :
  7 = located m2_world
  /\ entry_iterator {| entry_iterator := []; trace := locate_calls |} = []
  /\ trace {| entry_iterator := []; trace := locate_calls |}
     = (trace initial ++ locate_calls)%list
  /\ count is_iterator_release locate_calls = 1%nat
  /\ count is_entry_release locate_calls = 0%nat.
Proof.
  apply (locator_result m2_world initial
           {| entry_iterator := []; trace := locate_calls |} 7).
  reflexivity.
Defined.

Lemma locator_failure_witness :
  exists calls message,
    In message ["Could not find AGXAccelerator service.";
                "No objects match AGXAccelerator service.";
                "Found multiple GPUs."]
    /\ trace (snd (get_gpu_entry
                     (sample_world [3%positive; 4%positive]
                        kCFNumberSInt64Type 10 "Apple M2") initial))
       = (trace initial ++ calls ++ error_report message)%list
    /\ count is_iterator_release calls = 0%nat
    /\ count is_entry_release calls = 0%nat.
Proof.
  apply (locator_failure_releases_nothing
           (sample_world [3%positive; 4%positive]
              kCFNumberSInt64Type 10 "Apple M2")
           initial
           (snd (get_gpu_entry
                   (sample_world [3%positive; 4%positive]
                      kCFNumberSInt64Type 10 "Apple M2") initial))
           (-1)).
  reflexivity.
Defined.

Lemma core_count_reader_returns_witness :
  get_gpu_core_count m2_world 7 initial
  = (Ret 10, {| entry_iterator := []; trace := core_count_calls 7 |}).
Proof.
  apply (proj2 (core_count_reader_returns_iff m2_world 7 initial
                  {| entry_iterator := []; trace := core_count_calls 7 |}
                  10)).
  exists (mkCFNumber kCFNumberSInt64Type 10 true). repeat split.
Defined.

Lemma core_count_reader_failure_witness :
  exists calls message,
    In message ["Could not find 'gpu-core-count' property.";
                "'gpu-core-count' not sInt64.";
                "Could not fetch 'gpu-core-count' value."]
    /\ trace (snd (get_gpu_core_count
                     (sample_world [3%positive] kCFNumberSInt32Type 10
                        "Apple M2") 3 initial))
       = (trace initial ++ calls ++ error_report message)%list
    /\ count is_cf_release calls = 0%nat.
Proof.
  apply (core_count_reader_failure_skips_release
           (sample_world [3%positive] kCFNumberSInt32Type 10 "Apple M2")
           3%positive initial
           (snd (get_gpu_core_count
                   (sample_world [3%positive] kCFNumberSInt32Type 10
                      "Apple M2") 3 initial))
           (-1)).
  reflexivity.
Defined.

Lemma release_assert_guards_witness :
  (release_assert true "Found multiple GPUs." ;; cout "ok") initial
  = cout "ok" initial
  /\ exists st',
       (release_assert false "Found multiple GPUs." ;; cout "ok") initial
       = (Exit (-1), st')
       /\ entry_iterator st' = entry_iterator initial
       /\ trace st'
          = (trace initial ++ error_report "Found multiple GPUs.")%list
       /\ stderr_of (trace st')
          = stderr_of (trace initial) ++ endl ++ "Found multiple GPUs."
            ++ endl
       /\ stdout_of (trace st') = stdout_of (trace initial).
Proof.
  split.
  - apply (release_assert_guards_continuation true "Found multiple GPUs."
             (cout "ok") initial). reflexivity.
  - apply (release_assert_guards_continuation false "Found multiple GPUs."
             (cout "ok") initial). reflexivity.
Defined.

End ContractWitnesses.

(* ================================================================== *)
(** * The whole run: success, output and resources *)

Section RunProperties.

(** No check fires exactly when every answer is the expected one. *)
Lemma first_failure_none_iff (w : World) :
  first_failure w = None
  <-> match_dictionary_built w = true
      /\ matching_error w = 0
      /\ exists h number model,
           matching_entries w = [h]
           /\ gpu_core_count_property (properties w h) = Some number
           /\ number_type number = kCFNumberSInt64Type
           /\ number_exact number = true
           /\ model_property (properties w h) = Some model.
Proof.
  unfold first_failure, located, properties_of. split.
  - destruct (match_dictionary_built w); cbn [negb]; [|discriminate].
    destruct (matching_error w =? 0) eqn:E; cbn [negb]; [|discriminate].
    apply Z.eqb_eq in E.
    destruct (matching_entries w) as [|h [|h2 l]]; simpl;
      try discriminate.
    destruct (gpu_core_count_property (properties w h)) as [n|] eqn:P;
      [|discriminate].
    destruct (CFNumberType_eqb (number_type n) kCFNumberSInt64Type) eqn:T;
      cbn [negb]; [|discriminate].
    destruct (number_exact n) eqn:X; cbn [negb]; [|discriminate].
    destruct (model_property (properties w h)) as [m|] eqn:Mo;
      [|discriminate].
    intros _. apply CFNumberType_eqb_eq in T.
    split; [reflexivity|]. split; [exact E|].
    exists h, n, m. repeat split; auto.
  - intros (D & E & h & n & m & L & P & T & X & Mo).
    rewrite D, E, L; simpl. rewrite P, T, X, Mo. reflexivity.
Qed.

(** A failing run has status [-1], a successful one [0]. *)
Lemma status_tells_failure (w : World) :
  exit_status (run w) = 0 <-> first_failure w = None.
Proof.
  rewrite run_cases. destruct (first_failure w); simpl; split;
    intros H; try reflexivity; discriminate H.
Qed.

(** Every message a check reports is one of the seven texts. *)
Lemma reported_message_listed (w : World) (f : failure) :
  first_failure w = Some f -> In (failure_message f) error_messages.
Proof.
  unfold first_failure.
  destruct (match_dictionary_built w); cbn [negb];
    [|intros [= <-]; simpl; auto].
  destruct (matching_error w =? 0); cbn [negb];
    [|intros [= <-]; simpl; auto].
  destruct (2 <=? List.length (matching_entries w))%nat;
    [intros [= <-]; simpl; auto|].
  cbv zeta.
  destruct (gpu_core_count_property (properties_of w (located w)))
    as [n|]; [|intros [= <-]; simpl; auto].
  destruct (CFNumberType_eqb (number_type n) kCFNumberSInt64Type);
    cbn [negb]; [|intros [= <-]; simpl; auto 6].
  destruct (number_exact n); cbn [negb]; [|intros [= <-]; simpl; auto 7].
  destruct (model_property (properties_of w (located w)));
    [discriminate | intros [= <-]; simpl; auto 8].
Qed.

(** A string that starts with no family prefix is mapped to 0. *)
Lemma no_family_prefix_zero (model : string) :
  CFStringHasPrefix model "Apple M" = false ->
  CFStringHasPrefix model "Apple A" = false ->
  max_clock_speed_of_model model = 0.
Proof.
  intros HM HA. unfold max_clock_speed_of_model.
  destruct (prefix_M_weaker _ HM) as [H1 H2].
  now rewrite H1, H2, HM, HA.
Qed.

(** The trace of a run with the expected answers. *)
Lemma successful_trace
    (w : World) (h : positive) (number : CFNumber) (model : string) :
  match_dictionary_built w = true ->
  matching_error w = 0 ->
  matching_entries w = [h] ->
  gpu_core_count_property (properties w h) = Some number ->
  number_type number = kCFNumberSInt64Type ->
  number_exact number = true ->
  model_property (properties w h) = Some model ->
  run w = {| exit_status := 0;
             events := success_trace (Zpos h)
                         (int64_wrap (number_value number)) model |}.
Proof.
  intros D E L P T X Mo. rewrite run_cases.
  unfold first_failure, located, properties_of.
  rewrite D, E, L; simpl. rewrite P, T, X, Mo. reflexivity.
Qed.

(** X11: the run exits with status 0 exactly when the dictionary is
    built, the query reports no error, the iterator yields one entry, that
    entry has a ['gpu-core-count'] number of the 64-bit signed type whose
    value is extracted, and it has a ['model'] string.  The content of the
    model string plays no part. *)
Theorem run_succeeds_iff (w : World) :
  exit_status (run w) = 0
  <-> match_dictionary_built w = true
      /\ matching_error w = 0
      /\ exists h number model,
           matching_entries w = [h]
           /\ gpu_core_count_property (properties w h) = Some number
           /\ number_type number = kCFNumberSInt64Type
           /\ number_exact number = true
           /\ model_property (properties w h) = Some model.
Proof.
  rewrite status_tells_failure. apply first_failure_none_iff.
Qed.

Lemma run_succeeds_witness : exit_status (run m2_world) = 0.
Proof.
  apply (proj2 (run_succeeds_iff m2_world)).
  split; [reflexivity|]. split; [reflexivity|].
  exists 7%positive, (mkCFNumber kCFNumberSInt64Type 10 true), "Apple M2".
  repeat split.
Defined.

(** X12: in a run with the expected answers, standard output is the two
    lines built from the stored core count, read as an [int64_t], and from
    the table value of the model string; a stored value in the [int64_t]
    range is printed as it is. *)
Theorem successful_run_prints_report_lines
    (w : World) (h : positive) (number : CFNumber) (model : string) :
  match_dictionary_built w = true ->
  matching_error w = 0 ->
  matching_entries w = [h] ->
  gpu_core_count_property (properties w h) = Some number ->
  number_type number = kCFNumberSInt64Type ->
  number_exact number = true ->
  model_property (properties w h) = Some model ->
  stdout w = report_lines (int64_wrap (number_value number))
               (max_clock_speed_of_model model)
  /\ stderr w = ""
  /\ (- 2 ^ 63 <= number_value number < 2 ^ 63 ->
      stdout w = report_lines (number_value number)
                   (max_clock_speed_of_model model)).
Proof.
  intros D E L P T X Mo. unfold stdout, stderr.
  rewrite (successful_trace w h number model) by assumption.
  split; [reflexivity|]. split; [reflexivity|].
  intros R. rewrite (int64_wrap_small _ R). reflexivity.
Qed.

Lemma successful_run_report_witness :
  stdout (sample_world [2%positive] kCFNumberSInt64Type 38 "Apple M1 Max")
  = report_lines 38 1296.
Proof.
  apply (successful_run_prints_report_lines
           (sample_world [2%positive] kCFNumberSInt64Type 38 "Apple M1 Max")
           2%positive (mkCFNumber kCFNumberSInt64Type 38 true)
           "Apple M1 Max"
           eq_refl eq_refl eq_refl eq_refl eq_refl eq_refl eq_refl).
  simpl. lia.
Defined.

(** X13: a model string of no known family is not an error: with the
    other answers as expected the run exits with 0 and its second line is
    [The GPU runs at 0 MHz.] *)
Theorem unknown_model_still_reports
    (w : World) (h : positive) (number : CFNumber) (model : string) :
  match_dictionary_built w = true ->
  matching_error w = 0 ->
  matching_entries w = [h] ->
  gpu_core_count_property (properties w h) = Some number ->
  number_type number = kCFNumberSInt64Type ->
  number_exact number = true ->
  model_property (properties w h) = Some model ->
  CFStringHasPrefix model "Apple M" = false ->
  CFStringHasPrefix model "Apple A" = false ->
  exit_status (run w) = 0
  /\ stdout w = "The GPU has "
                ++ string_of_int64 (int64_wrap (number_value number))
                ++ " cores." ++ endl ++ "The GPU runs at 0 MHz." ++ endl.
Proof.
  intros D E L P T X Mo HM HA. unfold stdout.
  rewrite (successful_trace w h number model) by assumption.
  split; [reflexivity|].
  unfold success_trace. rewrite (no_family_prefix_zero model HM HA).
  reflexivity.
Qed.

Lemma unknown_model_witness :
  exit_status
    (run (sample_world [2%positive] kCFNumberSInt64Type 8 "Intel Iris")) = 0
  /\ stdout (sample_world [2%positive] kCFNumberSInt64Type 8 "Intel Iris")
     = "The GPU has 8 cores." ++ endl ++ "The GPU runs at 0 MHz." ++ endl.
Proof.
  apply (unknown_model_still_reports
           (sample_world [2%positive] kCFNumberSInt64Type 8 "Intel Iris")
           2%positive (mkCFNumber kCFNumberSInt64Type 8 true) "Intel Iris");
    reflexivity.
Defined.

(** X14: every run either exits with 0, with the two report lines on
    standard output and nothing on the error stream, or exits with [-1],
    with nothing on standard output and one of the seven messages, between
    two line feeds, on the error stream.  There is no partial output. *)
Theorem output_is_all_or_nothing (w : World) :
  (exit_status (run w) = 0
   /\ stderr w = ""
   /\ exists core_count mhz, stdout w = report_lines core_count mhz)
  \/ (exit_status (run w) = -1
      /\ stdout w = ""
      /\ exists message,
           In message error_messages
           /\ stderr w = endl ++ message ++ endl).
Proof.
  unfold stdout, stderr. rewrite run_cases.
  destruct (first_failure w) as [f|] eqn:F.
  - right. split; [reflexivity|].
    destruct (report_is_fatal w f F) as ((_ & Herr & Hout) & _ & Ht).
    rewrite Ht in Herr, Hout. simpl events. split; [exact Hout|].
    exists (failure_message f). split; [|exact Herr].
    now apply reported_message_listed with w.
  - left. split; [reflexivity|]. split; [reflexivity|].
    eexists; eexists; reflexivity.
Qed.

(** X15: the registry entry is released once in a run that exits with 0
    and never in a run that ends in an error. *)
Theorem entry_released_exactly_when_successful (w : World) :
  count is_entry_release (events (run w))
  = if exit_status (run w) =? 0 then 1%nat else 0%nat.
Proof.
  rewrite run_cases. destruct (first_failure w) as [f|]; [|reflexivity].
  destruct f; try reflexivity. simpl.
  destruct (key =? "model")%string; reflexivity.
Qed.

(** X16: no [CFRelease] call follows the search for the ['model']
    property, and a successful run obtains two property values but calls
    [CFRelease] once: the model string is never released. *)
Theorem model_string_is_never_released (w : World) :
  count is_cf_release
    (events_after is_model_search (events (run w))) = 0%nat
  /\ (exit_status (run w) = 0 ->
      count is_property_search (events (run w)) = 2%nat
      /\ count is_cf_release (events (run w)) = 1%nat).
Proof.
  rewrite run_cases. destruct (first_failure w) as [f|]; simpl.
  - split; [|discriminate].
    destruct f; try reflexivity. simpl.
    destruct (key =? "model")%string eqn:K; [reflexivity|].
    simpl. rewrite K. reflexivity.
  - split; [reflexivity|]. intros _. split; reflexivity.
Qed.

Lemma model_string_witness :
  count is_property_search (events (run m2_world)) = 2%nat
  /\ count is_cf_release (events (run m2_world)) = 1%nat.
Proof.
  apply (proj2 (model_string_is_never_released m2_world)). reflexivity.
Defined.

(** X17: when the dictionary cannot be built or the query reports an
    error, the iterator variable, which the query has not filled in, is
    never used: there is no [IOIteratorNext], no release of it, and no
    property search. *)
Theorem failed_query_never_uses_iterator (w : World) :
  match_dictionary_built w = false \/ matching_error w <> 0 ->
  count uses_iterator (events (run w)) = 0%nat
  /\ count is_property_search (events (run w)) = 0%nat
  /\ exit_status (run w) = -1.
Proof.
  intros H. rewrite run_cases. unfold first_failure.
  destruct (match_dictionary_built w); cbn [negb];
    [|repeat split].
  destruct H as [H|H]; [discriminate H|].
  apply Z.eqb_neq in H. rewrite H. repeat split.
Qed.

Lemma failed_query_witness :
  count uses_iterator
    (events (run {| match_dictionary_built := true;
                    matching_error := 5;
                    matching_entries := [2%positive];
                    properties :=
                      sample_properties kCFNumberSInt64Type 8 "Apple M2" |}))
  = 0%nat.
Proof.
  apply (failed_query_never_uses_iterator
           {| match_dictionary_built := true;
              matching_error := 5;
              matching_entries := [2%positive];
              properties :=
                sample_properties kCFNumberSInt64Type 8 "Apple M2" |}).
  right. discriminate.
Defined.

(** X18: the run depends on the system only through the dictionary
    answer, the query error, the first two entries of the iterator and the
    properties of the first entry: two systems that agree on these give
    the same status and the same trace. *)
Theorem outcome_ignores_other_entries (w w' : World) :
  match_dictionary_built w = match_dictionary_built w' ->
  matching_error w = matching_error w' ->
  firstn 2 (matching_entries w) = firstn 2 (matching_entries w') ->
  properties_of w (located w) = properties_of w' (located w') ->
  run w = run w'.
Proof.
  intros D E L P.
  assert (Hl : located w = located w').
  { unfold located.
    destruct (matching_entries w) as [|a [|b l]];
      destruct (matching_entries w') as [|a' [|b' l']];
      simpl in L; congruence. }
  assert (Hn : (2 <=? List.length (matching_entries w))%nat
               = (2 <=? List.length (matching_entries w'))%nat).
  { destruct (matching_entries w) as [|a [|b l]];
      destruct (matching_entries w') as [|a' [|b' l']];
      simpl in L; try discriminate L; reflexivity. }
  assert (F : first_failure w = first_failure w').
  { unfold first_failure. rewrite D, E, Hn, P. reflexivity. }
  assert (C : forall f, calls_before w f = calls_before w' f).
  { intros f. unfold calls_before. rewrite Hl. reflexivity. }
  rewrite !run_cases, F. destruct (first_failure w') as [f|].
  - rewrite C. reflexivity.
  - rewrite P, Hl. reflexivity.
Qed.

Lemma outcome_ignores_witness :
  run {| match_dictionary_built := true;
         matching_error := 0;
         matching_entries := [3%positive; 4%positive; 5%positive];
         properties :=
           fun h =>
             if (h =? 3)%positive
             then sample_properties kCFNumberSInt32Type 9 "Apple M1" h
             else sample_properties kCFNumberSInt64Type 8 "Apple M2" h |}
  = run (sample_world [3%positive; 4%positive]
           kCFNumberSInt32Type 9 "Apple M1").
Proof.
  apply (outcome_ignores_other_entries
           {| match_dictionary_built := true;
              matching_error := 0;
              matching_entries := [3%positive; 4%positive; 5%positive];
              properties :=
                fun h =>
                  if (h =? 3)%positive
                  then sample_properties kCFNumberSInt32Type 9 "Apple M1" h
                  else sample_properties kCFNumberSInt64Type 8 "Apple M2" h |}
           (sample_world [3%positive; 4%positive]
              kCFNumberSInt32Type 9 "Apple M1"));
    reflexivity.
Defined.

End RunProperties.
